(** * UsernameMenu: the account dropdown of the cafeteria ordering front end

    A shallow embedding of [frontend/src/components/UsernameMenu.tsx] and
    the properties its specification states about it.  The component is a
    function from the ambient Auth0 context to a React element tree; the
    tree is modelled as data, the handlers inside it as functions on the
    state of the identity provider. *)

From Stdlib Require Import String Ascii List Bool Arith Lia.
Import ListNotations.
Open Scope string_scope.
Set Warnings "-register-all".

(** ** JavaScript values and results *)

(** The values that reach the component from outside: the arguments React
    calls it with and the event a click passes to a handler. *)
Inductive JSValue : Type :=
| VUndefined
| VString (s : string)
| VObject (fields : list (string * JSValue))
| VMouseEvent (eventType : string).

Inductive JSError : Type :=
| TypeError (message : string).

(** A computation either completes with a value or throws. *)
Inductive Result (A : Type) : Type :=
| Ok (value : A)
| Throw (error : JSError).
Arguments Ok {A} value.
Arguments Throw {A} error.

(** ** JSX text

    Text written between JSX tags is cleaned when the element is created:
    the text is cut into lines, blanks that touch a line break are
    dropped, lines left empty disappear and the others are joined by one
    blank.  A text with no line break is kept as it is. *)
Module JSXText.

Definition newline : ascii := "010"%char.
Definition blank : ascii := " "%char.
Definition tab : ascii := "009"%char.

Definition is_blank (c : ascii) : bool := Ascii.eqb c blank.

Fixpoint lines (s : string) : list string :=
  match s with
  | EmptyString => [EmptyString]
  | String c rest =>
      if Ascii.eqb c newline then EmptyString :: lines rest
      else match lines rest with
           | l :: ls => String c l :: ls
           | [] => [String c EmptyString]
           end
  end.

Fixpoint tabs_to_blanks (s : string) : string :=
  match s with
  | EmptyString => EmptyString
  | String c rest =>
      String (if Ascii.eqb c tab then blank else c) (tabs_to_blanks rest)
  end.

Fixpoint trim_start (s : string) : string :=
  match s with
  | EmptyString => EmptyString
  | String c rest => if is_blank c then trim_start rest else s
  end.

Fixpoint all_blank (s : string) : bool :=
  match s with
  | EmptyString => true
  | String c rest => is_blank c && all_blank rest
  end.

Fixpoint trim_end (s : string) : string :=
  match s with
  | EmptyString => EmptyString
  | String c rest =>
      if all_blank s then EmptyString else String c (trim_end rest)
  end.

(** A line counts as non-empty when it holds a character that is neither
    a blank nor a tab. *)
Definition non_empty_line (l : string) : bool :=
  negb (all_blank (tabs_to_blanks l)).

Fixpoint last_non_empty (ls : list string) (i last : nat) : nat :=
  match ls with
  | [] => last
  | l :: rest =>
      last_non_empty rest (S i) (if non_empty_line l then i else last)
  end.

Definition is_empty (s : string) : bool :=
  match s with EmptyString => true | _ => false end.

Fixpoint clean_lines (ls : list string) (i count lastNonEmpty : nat)
  : string :=
  match ls with
  | [] => EmptyString
  | l :: rest =>
      let isFirstLine := Nat.eqb i 0 in
      let isLastLine := Nat.eqb i (count - 1) in
      let isLastNonEmptyLine := Nat.eqb i lastNonEmpty in
      let t0 := tabs_to_blanks l in
      let t1 := if isFirstLine then t0 else trim_start t0 in
      let t2 := if isLastLine then t1 else trim_end t1 in
      let piece :=
        if is_empty t2 then EmptyString
        else if isLastNonEmptyLine then t2
             else t2 ++ " " in
      piece ++ clean_lines rest (S i) count lastNonEmpty
  end.

(** The string child a JSX text leaves, if any. *)
Definition clean (raw : string) : option string :=
  let ls := lines raw in
  let str := clean_lines ls 0 (length ls) (last_non_empty ls 0 0) in
  if is_empty str then None else Some str.

Fixpoint blanks (n : nat) : string :=
  match n with
  | O => EmptyString
  | S m => String blank (blanks m)
  end.

(** A line break followed by [n] blanks of indentation. *)
Definition indent (n : nat) : string := String newline (blanks n).

End JSXText.

(** ** React elements *)

(** The components the file imports and instantiates. *)
Inductive ComponentType : Type :=
| DropdownMenu
| DropdownMenuTrigger
| DropdownMenuContent
| DropdownMenuItem
| Separator
| CircleUserRound
| Link
| Button.

Definition ComponentType_eqb (a b : ComponentType) : bool :=
  match a, b with
  | DropdownMenu, DropdownMenu
  | DropdownMenuTrigger, DropdownMenuTrigger
  | DropdownMenuContent, DropdownMenuContent
  | DropdownMenuItem, DropdownMenuItem
  | Separator, Separator
  | CircleUserRound, CircleUserRound
  | Link, Link
  | Button, Button => true
  | _, _ => false
  end.

Section Elements.

(** The state of the identity provider, on which handlers act. *)
Variable St : Type.

(** An event handler receives the arguments of the call and acts on the
    provider. *)
Definition Handler : Type := list JSValue -> St -> St.

Inductive PropValue : Type :=
| PString (s : string)
| PHandler (h : Handler).

(** Props are the attributes of the JSX tag, in the order written. *)
Definition Props : Type := list (string * PropValue).

(** A child of an element: a string, the value [undefined] (which React
    renders as nothing) or another element. *)
Inductive Node : Type :=
| NText (s : string)
| NUndefined
| NElem (type : ComponentType) (props : Props) (children : list Node).

(** What stands between the tags of a JSX element, as written. *)
Inductive JSXChild : Type :=
| JText (raw : string)
| JComment
| JExpr (value : Node)
| JElem (element : Node).

Fixpoint jsx_children (cs : list JSXChild) : list Node :=
  match cs with
  | [] => []
  | JText raw :: rest =>
      match JSXText.clean raw with
      | Some s => NText s :: jsx_children rest
      | None => jsx_children rest
      end
  | JComment :: rest => jsx_children rest
  | JExpr v :: rest => v :: jsx_children rest
  | JElem e :: rest => e :: jsx_children rest
  end.

Definition jsx (type : ComponentType) (props : Props)
  (children : list JSXChild) : Node :=
  NElem type props (jsx_children children).

(** A later attribute of the same name wins. *)
Fixpoint lookup_prop (name : string) (ps : Props) : option PropValue :=
  match ps with
  | [] => None
  | (k, v) :: rest =>
      match lookup_prop name rest with
      | Some v' => Some v'
      | None => if String.eqb k name then Some v else None
      end
  end.

Definition node_props (n : Node) : Props :=
  match n with
  | NElem _ ps _ => ps
  | _ => []
  end.

Definition node_children (n : Node) : list Node :=
  match n with
  | NElem _ _ cs => cs
  | _ => []
  end.

Definition has_type (t : ComponentType) (n : Node) : bool :=
  match n with
  | NElem t' _ _ => ComponentType_eqb t t'
  | _ => false
  end.

Definition get_prop (name : string) (n : Node) : option PropValue :=
  lookup_prop name (node_props n).

Definition string_prop (name : string) (n : Node) : option string :=
  match get_prop name n with
  | Some (PString s) => Some s
  | _ => None
  end.

Definition handler_prop (name : string) (n : Node) : option Handler :=
  match get_prop name n with
  | Some (PHandler h) => Some h
  | _ => None
  end.

(** The text a node shows: its strings, in document order. *)
Fixpoint text_content (n : Node) : string :=
  match n with
  | NText s => s
  | NUndefined => EmptyString
  | NElem _ _ cs => String.concat EmptyString (map text_content cs)
  end.

(** The string children of a node. *)
Definition text_children (n : Node) : list string :=
  flat_map (fun c => match c with NText s => [s] | _ => [] end)
    (node_children n).

(** A node and everything below it, in document order. *)
Fixpoint subtree (n : Node) : list Node :=
  match n with
  | NElem _ _ cs => n :: flat_map subtree cs
  | _ => [n]
  end.

Definition descendants (n : Node) : list Node :=
  flat_map subtree (node_children n).

Definition find_all (t : ComponentType) (n : Node) : list Node :=
  filter (has_type t) (subtree n).

Definition child_of_type (t : ComponentType) (n : Node) : option Node :=
  find (has_type t) (node_children n).

(** Every handler an element of the tree carries, with the element's
    type and the attribute it is passed as. *)
Definition prop_handlers (n : Node)
  : list (ComponentType * string * Handler) :=
  match n with
  | NElem t ps _ =>
      flat_map (fun kv => match snd kv with
                          | PHandler h => [(t, fst kv, h)]
                          | PString _ => []
                          end) ps
  | _ => []
  end.

Definition all_handlers (n : Node)
  : list (ComponentType * string * Handler) :=
  flat_map prop_handlers (subtree n).

End Elements.

Arguments NText {St} s.
Arguments NUndefined {St}.
Arguments NElem {St} type props children.
Arguments PString {St} s.
Arguments PHandler {St} h.
Arguments JText {St} raw.
Arguments JComment {St}.
Arguments JExpr {St} value.
Arguments JElem {St} element.
Arguments jsx {St} type props children.
Arguments lookup_prop {St} name ps.
Arguments node_props {St} n.
Arguments node_children {St} n.
Arguments has_type {St} t n.
Arguments get_prop {St} name n.
Arguments string_prop {St} name n.
Arguments handler_prop {St} name n.
Arguments text_content {St} n.
Arguments text_children {St} n.
Arguments subtree {St} n.
Arguments descendants {St} n.
Arguments find_all {St} t n.
Arguments child_of_type {St} t n.
Arguments prop_handlers {St} n.
Arguments all_handlers {St} n.

(** ** The identity accessor

    [useAuth0] exposes the current user and the logout capability of the
    identity provider.  The fields are those of the Auth0 React client;
    the component destructures [user] and [logout] only. *)

Record User : Type := {
  sub : option string;
  nickname : option string;
  picture : option string;
  email : option string
}.

Record Auth0ContextInterface (St : Type) : Type := {
  user : option User;
  isAuthenticated : bool;
  isLoading : bool;
  logout : Handler St
}.
Arguments user {St} _.
Arguments isAuthenticated {St} _.
Arguments isLoading {St} _.
Arguments logout {St} _.

(** An identity provider with state [St] publishes a context value for
    each of its states. *)
Class Auth0Provider (St : Type) : Type := {
  auth0_context : St -> Auth0ContextInterface St
}.

(** ** Rendering

    A render runs against the state of the identity provider; it may
    change that state (by calling into the provider) and it may throw. *)
Section Render.

Context {St : Type} {provider : Auth0Provider St}.

Definition Render (A : Type) : Type := St -> Result A * St.

Definition ret {A : Type} (a : A) : Render A := fun s => (Ok a, s).

Definition bind {A B : Type} (m : Render A) (k : A -> Render B)
  : Render B :=
  fun s =>
    match m s with
    | (Ok a, s') => k a s'
    | (Throw e, s') => (Throw e, s')
    end.

(** The hook reads the ambient context value. *)
Definition useAuth0 : Render (Auth0ContextInterface St) :=
  fun s => (Ok (auth0_context s), s).

(** [object.property]: throws when the object is undefined. *)
Definition member {A B : Type} (object : option A) (property : A -> B)
  : Render B :=
  fun s =>
    match object with
    | Some o => (Ok (property o), s)
    | None =>
        (Throw (TypeError "Cannot read properties of undefined"), s)
    end.

(** [object?.property]: undefined when the object is undefined. *)
Definition optional_member {A B : Type} (object : option A)
  (property : A -> option B) : Render (option B) :=
  fun s =>
    match object with
    | Some o => (Ok (property o), s)
    | None => (Ok None, s)
    end.

(** The value of an expression in braces, as a child. *)
Definition expression_child (v : option string) : Node St :=
  match v with
  | Some s => NText s
  | None => NUndefined
  end.

End Render.

Declare Scope render_scope.
Delimit Scope render_scope with render.
Notation "x <- m ;; k" := (bind m (fun x => k))
  (at level 61, m at next level, right associativity) : render_scope.

(** ** The component *)
Section Component.

Context {St : Type} {provider : Auth0Provider St}.
Import JSXText.
Local Open Scope render_scope.

(** [export default function UsernameMenu()]: the function declares no
    parameter, so whatever React passes it is ignored. *)
Definition UsernameMenu (_arguments : list JSValue) : Render (Node St) :=
  ctx <- useAuth0 ;;
  let user := user ctx in
  let logout := logout ctx in
  user_email <- optional_member user email ;;
  ret
    (jsx DropdownMenu []
       [ JText (indent 12);
         JElem
           (jsx DropdownMenuTrigger
              [("className",
                 PString "flex items-center px-3 font-bold hover:text-orange-500 gap-2 outline-none")]
              [ JText " "; JComment; JText (indent 16);
                JElem
                  (jsx CircleUserRound
                     [("className", PString "text-orange-500")] []);
                JText (indent 16);
                JExpr (expression_child user_email);
                JText (indent 12) ]);
         JText (indent 12); JComment; JText (indent 12);
         JElem
           (jsx DropdownMenuContent []
              [ JText (indent 16);
                JElem
                  (jsx DropdownMenuItem []
                     [ JText (indent 20);
                       JElem
                         (jsx Link
                            [("to", PString "/user-profile");
                             ("className",
                               PString "font-bold hover:text-orange-500")]
                            [ JText
                                (indent 24 ++ "User Profile" ++ indent 20) ]);
                       JText (indent 16) ]);
                JText (indent 16); JComment; JText (indent 16);
                JElem (jsx Separator [] []);
                JText (indent 16);
                JElem
                  (jsx DropdownMenuItem []
                     [ JText (indent 20); JComment; JText (indent 20);
                       JElem
                         (jsx Button
                            [("onClick",
                               PHandler (fun _event => logout []));
                             ("className",
                               PString "flex flex-1 font-bold bg-orange-500")]
                            [ JText (indent 24 ++ "Logout" ++ indent 20) ]);
                       JText (indent 16) ]);
                JText (indent 12) ]);
         JText (indent 8) ]).

(** The element tree of a render that completed. *)
Definition rendered (arguments : list JSValue) (s : St)
  : option (Node St) :=
  match fst (UsernameMenu arguments s) with
  | Ok tree => Some tree
  | Throw _ => None
  end.

(** The value of [user?.email] for a context value. *)
Definition current_email (c : Auth0ContextInterface St) : option string :=
  match user c with
  | Some u => email u
  | None => None
  end.

(** The provider moves to another state between two renders; this
    happens outside the component. *)
Definition provider_update (change : St -> St) : Render unit :=
  fun s => (Ok tt, change s).

(** The mounted component is rendered, the provider changes, and the
    same mounted component is rendered again. *)
Definition rerender (arguments : list JSValue) (change : St -> St)
  : Render (Node St * Node St) :=
  first <- UsernameMenu arguments ;;
  _ <- provider_update change ;;
  second <- UsernameMenu arguments ;;
  ret (first, second).

End Component.

(** ** Parts of the rendered menu *)
Section Parts.

Context {St : Type}.

Definition trigger_of (tree : Node St) : option (Node St) :=
  child_of_type DropdownMenuTrigger tree.

Definition content_of (tree : Node St) : option (Node St) :=
  child_of_type DropdownMenuContent tree.

Definition menu_items (content : Node St) : list (Node St) :=
  filter (has_type DropdownMenuItem) (node_children content).

(** Links and buttons are what a user can activate inside the menu. *)
Definition interactive (n : Node St) : bool :=
  has_type Link n || has_type Button n.

Definition interactive_entries (n : Node St) : list (Node St) :=
  filter interactive (descendants n).

Definition node_type (n : Node St) : option ComponentType :=
  match n with
  | NElem t _ _ => Some t
  | _ => None
  end.

(** An entry as a user meets it: what it is and how it is labelled. *)
Definition entry_summary (n : Node St) : option ComponentType * string :=
  (node_type n, text_content n).

(** The shape of a tree with the attribute values left out: types,
    strings and the order of children. *)
Inductive Outline : Type :=
| OText (s : string)
| ONothing
| OElem (type : ComponentType) (children : list Outline).

Fixpoint outline (n : Node St) : Outline :=
  match n with
  | NText s => OText s
  | NUndefined => ONothing
  | NElem t _ cs => OElem t (map outline cs)
  end.

(** Whatever a user could act on: a link, a button or a trigger, and any
    element that is given a handler or a destination. *)
Definition activatable (n : Node St) : bool :=
  interactive n
  || has_type DropdownMenuTrigger n
  || negb (Nat.eqb (length (prop_handlers n)) 0)
  || match get_prop "to" n with Some _ => true | None => false end
  || match get_prop "href" n with Some _ => true | None => false end.

(** "No explicit href or route target": the link names no destination. *)
Definition bare_link (n : Node St) : Prop :=
  get_prop "href" n = None /\ get_prop "to" n = None.

End Parts.

(** ** Interaction *)
Section Interaction.

Context {St : Type}.

(** Modelled from the spec: the button primitive ([./ui/button], not
    among the sources) is supplied its label and handler by the
    component; a click on it calls the [onClick] it was given with the
    click event. *)
Definition click (n : Node St) (event : JSValue) (s : St) : St :=
  match handler_prop "onClick" n with
  | Some h => h [event] s
  | None => s
  end.

(** The router's record of navigation calls.  Activating a router link
    asks the router to navigate to the link's [to]. *)
Definition NavigationLog : Type := list string.

Definition follow_link (n : Node St) (log : NavigationLog)
  : NavigationLog :=
  if has_type Link n then
    match string_prop "to" n with
    | Some path => (log ++ [path])%list
    | None => log
    end
  else log.

(** One click after another on the same rendered element, each with its
    own event. *)
Definition click_each (n : Node St) (events : list JSValue) (s : St) : St :=
  fold_left (fun s' event => click n event s') events s.

End Interaction.

(** Modelled from the spec: the dropdown primitive
    ([@/components/ui/dropdown-menu], not among the sources) owns the
    open/closed state of the menu: closed by default, it opens on trigger
    interaction and closes on outside interaction or item selection. *)
Module Dropdown.

Inductive Interaction : Type :=
| TriggerInteraction
| OutsideInteraction
| ItemSelection (item : nat).

(** Whether the menu is open. *)
Definition default_open : bool := false.

Definition step (open : bool) (i : Interaction) : bool :=
  match i with
  | TriggerInteraction => true
  | OutsideInteraction => false
  | ItemSelection _ => false
  end.

Definition run (trace : list Interaction) : bool :=
  fold_left step trace default_open.

Definition closes (i : Interaction) : bool :=
  match i with
  | TriggerInteraction => false
  | OutsideInteraction | ItemSelection _ => true
  end.

End Dropdown.

(** Modelled from the spec: how the dropdown primitive
    ([@/components/ui/dropdown-menu], not among the sources) reads a
    user's gesture on the tree the component arranges.  The trigger and
    the content are the children of the menu, the items the children of
    the content.  A gesture on the trigger or on anything inside it is a
    trigger interaction; a gesture on an item or on anything inside it is
    the selection of that item, which takes a menu that is open (the
    content is what opening shows); a gesture elsewhere in the content
    selects nothing. *)
Section Gestures.

Context {St : Type}.

(** Where a gesture lands: on the node reached from the root by the
    given child positions, or outside of the menu. *)
Inductive Gesture : Type :=
| Activate (path : list nat)
| Outside.

(** The node at a path; [undefined] renders nothing to land on. *)
Fixpoint node_at (n : Node St) (path : list nat) : option (Node St) :=
  match path with
  | [] => match n with
          | NUndefined => None
          | _ => Some n
          end
  | i :: rest =>
      match nth_error (node_children n) i with
      | Some c => node_at c rest
      | None => None
      end
  end.

(** The rank of the child at position [j] among the menu items. *)
Definition item_index (content : Node St) (j : nat) : nat :=
  length (filter (has_type DropdownMenuItem)
            (firstn j (node_children content))).

Definition classify (tree : Node St) (g : Gesture)
  : option Dropdown.Interaction :=
  match g with
  | Outside => Some Dropdown.OutsideInteraction
  | Activate path =>
      if negb (has_type DropdownMenu tree) then None
      else
        match node_at tree path, path with
        | Some _, i :: rest =>
            match nth_error (node_children tree) i with
            | Some part =>
                if has_type DropdownMenuTrigger part
                then Some Dropdown.TriggerInteraction
                else if has_type DropdownMenuContent part then
                  match rest with
                  | j :: _ =>
                      match nth_error (node_children part) j with
                      | Some entry =>
                          if has_type DropdownMenuItem entry
                          then Some (Dropdown.ItemSelection
                                       (item_index part j))
                          else None
                      | None => None
                      end
                  | [] => None
                  end
                else None
            | None => None
            end
        | _, _ => None
        end
  end.

Definition gesture_step (tree : Node St) (open : bool) (g : Gesture)
  : bool :=
  match classify tree g with
  | Some (Dropdown.ItemSelection item) =>
      if open then Dropdown.step open (Dropdown.ItemSelection item)
      else open
  | Some i => Dropdown.step open i
  | None => open
  end.

Definition gesture_run (tree : Node St) (gestures : list Gesture) : bool :=
  fold_left (gesture_step tree) gestures Dropdown.default_open.

(** Gestures the primitive answers by closing the menu. *)
Definition closing (tree : Node St) (g : Gesture) : bool :=
  match classify tree g with
  | Some i => Dropdown.closes i
  | None => false
  end.

End Gestures.

(** ** Providers used to observe the component *)

(** A provider that also records every call of [logout] with the
    arguments it received. *)
Definition CallLog : Type := list (list JSValue).

#[export] Instance Recording {St : Type} (base : Auth0Provider St)
  : Auth0Provider (St * CallLog) := {|
  auth0_context w :=
    let c := @auth0_context St base (fst w) in
    {| user := user c;
       isAuthenticated := isAuthenticated c;
       isLoading := isLoading c;
       logout := fun arguments w' =>
                   (logout c arguments (fst w'), (snd w' ++ [arguments])%list) |}
|}.

(** A session that holds the signed-in user, if any; logging out ends
    it. *)
Record Session : Type := {
  session_user : option User;
  session_loading : bool
}.

#[export] Instance SessionProvider : Auth0Provider Session := {|
  auth0_context s :=
    {| user := session_user s;
       isAuthenticated :=
         match session_user s with Some _ => true | None => false end;
       isLoading := session_loading s;
       logout := fun _ _ =>
                   {| session_user := None; session_loading := false |} |}
|}.

Definition signed_in (address : string) (nick : string) : Session :=
  {| session_user :=
       Some {| sub := Some "auth0|1"; nickname := Some nick;
               picture := None; email := Some address |};
     session_loading := false |}.

Definition signed_out : Session :=
  {| session_user := None; session_loading := false |}.

Definition loading : Session :=
  {| session_user := None; session_loading := true |}.

(** A user whose profile carries no address. *)
Definition without_email : Session :=
  {| session_user :=
       Some {| sub := Some "auth0|2"; nickname := Some "guest";
               picture := None; email := None |};
     session_loading := false |}.

(** * Properties *)

(** ** JSX text *)
Module JSXTextFacts.
Import JSXText.

Lemma lines_blanks (n : nat) : lines (blanks n) = [blanks n].
Proof.
  induction n as [|n IH]; [reflexivity|].
  cbn [blanks lines]. rewrite IH. reflexivity.
Qed.

Lemma tabs_to_blanks_blanks (n : nat) : tabs_to_blanks (blanks n) = blanks n.
Proof.
  induction n as [|n IH]; [reflexivity|].
  cbn [blanks tabs_to_blanks]. rewrite IH. reflexivity.
Qed.

Lemma trim_start_blanks (n : nat) : trim_start (blanks n) = EmptyString.
Proof. induction n as [|n IH]; [reflexivity|exact IH]. Qed.

Lemma all_blank_blanks (n : nat) : all_blank (blanks n) = true.
Proof. induction n as [|n IH]; [reflexivity|exact IH]. Qed.

(** Indentation between two tags leaves no child, however deep. *)
Lemma clean_indent (n : nat) : clean (indent n) = None.
Proof.
  unfold clean, indent. cbn [lines]. rewrite lines_blanks.
  change (Ascii.eqb newline newline) with true. cbv iota.
  cbn [length last_non_empty non_empty_line tabs_to_blanks all_blank negb].
  unfold non_empty_line. rewrite tabs_to_blanks_blanks, all_blank_blanks.
  cbn [negb clean_lines Nat.eqb Nat.sub tabs_to_blanks trim_end is_empty
       append].
  rewrite tabs_to_blanks_blanks, trim_start_blanks. reflexivity.
Qed.

Example clean_profile_label :
  clean (indent 24 ++ "User Profile" ++ indent 20) = Some "User Profile".
Proof. reflexivity. Qed.

Example clean_single_blank : clean " " = Some " ".
Proof. reflexivity. Qed.

Example clean_two_lines :
  clean ("  a  b " ++ indent 3 ++ " c  ") = Some "  a  b c  ".
Proof. reflexivity. Qed.

End JSXTextFacts.

(** ** What a render produces *)
Section RenderFacts.

Context {St : Type} {provider : Auth0Provider St}.

(** A render completes, leaves the provider as it found it, and yields
    the tree below: the address of the user is its only varying child
    and [logout] its only capability. *)
Lemma UsernameMenu_renders (arguments : list JSValue) (s : St) :
  UsernameMenu arguments s =
  (Ok
     (NElem DropdownMenu []
        [ NElem DropdownMenuTrigger
            [("className",
               PString "flex items-center px-3 font-bold hover:text-orange-500 gap-2 outline-none")]
            [ NText " ";
              NElem CircleUserRound
                [("className", PString "text-orange-500")] [];
              expression_child (current_email (auth0_context s)) ];
          NElem DropdownMenuContent []
            [ NElem DropdownMenuItem []
                [ NElem Link
                    [("to", PString "/user-profile");
                     ("className", PString "font-bold hover:text-orange-500")]
                    [ NText "User Profile" ] ];
              NElem Separator [] [];
              NElem DropdownMenuItem []
                [ NElem Button
                    [("onClick",
                       PHandler
                         (fun _ => logout (auth0_context s) []));
                     ("className",
                       PString "flex flex-1 font-bold bg-orange-500")]
                    [ NText "Logout" ] ] ] ]),
   s).
Proof.
  unfold UsernameMenu, bind, useAuth0, optional_member, ret, current_email.
  destruct (user (auth0_context s)) as [u|]; reflexivity.
Qed.

Lemma rendered_some (arguments : list JSValue) (s : St) :
  exists tree, UsernameMenu arguments s = (Ok tree, s)
               /\ rendered arguments s = Some tree.
Proof.
  unfold rendered. rewrite UsernameMenu_renders.
  eexists; split; reflexivity.
Qed.

(** The tree is determined by the address and the logout capability. *)
Lemma rendered_ext (a1 a2 : list JSValue) (s1 s2 : St) :
  current_email (auth0_context s1) = current_email (auth0_context s2) ->
  logout (auth0_context s1) = logout (auth0_context s2) ->
  rendered a1 s1 = rendered a2 s2.
Proof.
  intros Hemail Hlogout. unfold rendered.
  rewrite !UsernameMenu_renders. cbn [fst].
  rewrite Hemail, Hlogout. reflexivity.
Qed.

(** Plain member access on an absent object throws, which the optional
    access of the component never does. *)
Lemma member_undefined_throws (s : St) :
  exists e, member (None : option User) email s = (Throw e, s).
Proof. eexists; reflexivity. Qed.

Lemma optional_member_total (u : option User) (s : St) :
  exists v, optional_member u email s = (Ok v, s).
Proof. destruct u; eexists; reflexivity. Qed.

End RenderFacts.

(** ** Gestures on a menu *)
Section GestureFacts.

Context {St : Type}.

(** A gesture that lands below the trigger is a trigger interaction. *)
Lemma classify_in_trigger (tree trigger : Node St) (i : nat)
  (rest : list nat) :
  has_type DropdownMenu tree = true ->
  nth_error (node_children tree) i = Some trigger ->
  has_type DropdownMenuTrigger trigger = true ->
  node_at tree (i :: rest) <> None ->
  classify tree (Activate (i :: rest)) = Some Dropdown.TriggerInteraction.
Proof.
  intros Hroot Hchild Htype Hlands. unfold classify.
  rewrite Hroot. cbn [negb].
  destruct (node_at tree (i :: rest)); [|contradiction].
  rewrite Hchild, Htype. reflexivity.
Qed.

(** A gesture that lands below a menu item selects that item. *)
Lemma classify_in_item (tree content entry : Node St) (i j : nat)
  (rest : list nat) :
  has_type DropdownMenu tree = true ->
  nth_error (node_children tree) i = Some content ->
  has_type DropdownMenuTrigger content = false ->
  has_type DropdownMenuContent content = true ->
  nth_error (node_children content) j = Some entry ->
  has_type DropdownMenuItem entry = true ->
  node_at tree (i :: j :: rest) <> None ->
  classify tree (Activate (i :: j :: rest))
  = Some (Dropdown.ItemSelection (item_index content j)).
Proof.
  intros Hroot Hchild Hnot Htype Hentry Hitem Hlands. unfold classify.
  rewrite Hroot. cbn [negb].
  destruct (node_at tree (i :: j :: rest)); [|contradiction].
  rewrite Hchild, Hnot, Htype, Hentry, Hitem. reflexivity.
Qed.

(** A closing gesture leaves the menu closed, open or not before. *)
Lemma closing_step (tree : Node St) (open : bool) (g : Gesture) :
  closing tree g = true -> gesture_step tree open g = false.
Proof.
  unfold closing, gesture_step.
  destruct (classify tree g) as [[| |item]|]; cbn; intros H;
    try discriminate; destruct open; reflexivity.
Qed.

Lemma trigger_gesture_opens (tree trigger : Node St) (i : nat)
  (rest : list nat) (open : bool) :
  has_type DropdownMenu tree = true ->
  nth_error (node_children tree) i = Some trigger ->
  has_type DropdownMenuTrigger trigger = true ->
  node_at tree (i :: rest) <> None ->
  gesture_step tree open (Activate (i :: rest)) = true.
Proof.
  intros Hroot Hchild Htype Hlands. unfold gesture_step.
  rewrite (classify_in_trigger tree trigger i rest Hroot Hchild Htype Hlands).
  reflexivity.
Qed.

Lemma item_gesture_closes (tree content entry : Node St) (i j : nat)
  (rest : list nat) (open : bool) :
  has_type DropdownMenu tree = true ->
  nth_error (node_children tree) i = Some content ->
  has_type DropdownMenuTrigger content = false ->
  has_type DropdownMenuContent content = true ->
  nth_error (node_children content) j = Some entry ->
  has_type DropdownMenuItem entry = true ->
  node_at tree (i :: j :: rest) <> None ->
  closing tree (Activate (i :: j :: rest)) = true
  /\ gesture_step tree open (Activate (i :: j :: rest)) = false.
Proof.
  intros Hroot Hchild Hnot Htype Hentry Hitem Hlands.
  assert (Hclosing : closing tree (Activate (i :: j :: rest)) = true).
  { unfold closing.
    rewrite (classify_in_item tree content entry i j rest
               Hroot Hchild Hnot Htype Hentry Hitem Hlands).
    reflexivity. }
  split; [exact Hclosing|now apply closing_step].
Qed.

(** The last gesture decides: the history before it does not matter. *)
Lemma run_ends_closed (tree : Node St) (gestures : list Gesture)
  (g : Gesture) :
  closing tree g = true ->
  gesture_run tree (gestures ++ [g])%list = false.
Proof.
  intros Hclosing. unfold gesture_run.
  rewrite fold_left_app. cbn [fold_left]. now apply closing_step.
Qed.

Lemma run_ends_open (tree trigger : Node St) (gestures : list Gesture)
  (i : nat) (rest : list nat) :
  has_type DropdownMenu tree = true ->
  nth_error (node_children tree) i = Some trigger ->
  has_type DropdownMenuTrigger trigger = true ->
  node_at tree (i :: rest) <> None ->
  gesture_run tree (gestures ++ [Activate (i :: rest)])%list = true.
Proof.
  intros Hroot Hchild Htype Hlands. unfold gesture_run.
  rewrite fold_left_app. cbn [fold_left].
  now apply (trigger_gesture_opens tree trigger).
Qed.

End GestureFacts.

(** The behaviour of a menu whose trigger is the first child and whose
    items are the first and third child of the content, the second
    child, from the lemmas on where a gesture lands. *)
Ltac settle_gestures :=
  split;
  [ intros open rest Hlands;
    eapply trigger_gesture_opens;
    [reflexivity|reflexivity|reflexivity|exact Hlands] |];
  split; [intros open; reflexivity|];
  split;
  [ intros open j rest [-> | ->] Hlands;
    (eapply item_gesture_closes;
     [reflexivity|reflexivity|reflexivity|reflexivity|reflexivity
     |reflexivity|exact Hlands]) |];
  split;
  [ intros gestures g Hclosing; now apply run_ends_closed |];
  intros gestures rest Hlands;
  eapply run_ends_open;
  [reflexivity|reflexivity|reflexivity|exact Hlands].

(** The expression child is a string or [undefined]; a query that walks
    the whole tree is settled in both cases. *)
Ltac email_cases :=
  match goal with
  | |- context [expression_child ?v] => destruct v
  end.

(** ** The Logout button *)

(** C1.  Over any identity provider, with every call of [logout] recorded:
    a render makes no call (provider and call record are as before); the
    tree carries one handler, the [onClick] of its one button, labelled
    "Logout"; and each click on that button, whatever the event and the
    state, performs the provider's [logout] on no arguments and adds
    exactly one entry, the empty argument list, to the record. *)
Theorem logout_click_calls_logout_once
  {St : Type} (base : Auth0Provider St)
  (arguments : list JSValue) (w : St * CallLog) :
  exists tree button h,
    @UsernameMenu _ (Recording base) arguments w = (Ok tree, w)
    /\ find_all Button tree = [button]
    /\ text_content button = "Logout"
    /\ handler_prop "onClick" button = Some h
    /\ all_handlers tree = [(Button, "onClick", h)]
    /\ forall (event : JSValue) (w' : St * CallLog),
         click button event w'
         = (logout (@auth0_context _ base (fst w)) [] (fst w'),
            (snd w' ++ [[]])%list).
Proof.
  rewrite UsernameMenu_renders.
  email_cases; do 3 eexists.
  all: split; [reflexivity|].
  all: split; [reflexivity|].
  all: split; [reflexivity|].
  all: split; [reflexivity|].
  all: split; [reflexivity|].
  all: intros event w'; reflexivity.
Qed.

Section Claims.

Context {St : Type} {provider : Auth0Provider St}.

(** ** The trigger *)

(** C2.  When the user is present and has the address [e], the render
    completes and the trigger holds the string [e] as a child: its
    strings are the blank written after the opening tag and [e]. *)
Theorem trigger_shows_email
  (arguments : list JSValue) (s : St) (u : User) (e : string) :
  user (auth0_context s) = Some u ->
  email u = Some e ->
  exists tree trigger,
    UsernameMenu arguments s = (Ok tree, s)
    /\ trigger_of tree = Some trigger
    /\ In (NText e) (node_children trigger)
    /\ text_children trigger = [" "; e]
    /\ text_content trigger = " " ++ e.
Proof.
  intros Huser Hemail. rewrite UsernameMenu_renders.
  unfold current_email. rewrite Huser, Hemail.
  do 2 eexists. split; [reflexivity|].
  split; [reflexivity|].
  split; [cbn; auto|].
  split; reflexivity.
Qed.

(** C5.  When the user is absent, or present without an address, the
    render completes without throwing, the expression child of the
    trigger is [undefined], and the trigger shows no string but the
    blank written after its opening tag. *)
Theorem render_without_email
  (arguments : list JSValue) (s : St) :
  user (auth0_context s) = None
  \/ (exists u, user (auth0_context s) = Some u /\ email u = None) ->
  exists tree trigger icon,
    UsernameMenu arguments s = (Ok tree, s)
    /\ trigger_of tree = Some trigger
    /\ node_children trigger = [NText " "; icon; NUndefined]
    /\ has_type CircleUserRound icon = true
    /\ text_children trigger = [" "]
    /\ text_content trigger = " ".
Proof.
  intros Habsent.
  assert (Hnone : current_email (auth0_context s) = None).
  { unfold current_email.
    destruct Habsent as [H | (u & H & Hu)]; rewrite H; [reflexivity|exact Hu]. }
  rewrite UsernameMenu_renders, Hnone.
  do 3 eexists. repeat split; reflexivity.
Qed.

(** ** The menu content *)

(** C3.  In every render the menu content is exactly two menu items with
    a separator between them; the first item holds only a link labelled
    "User Profile", the second only a button labelled "Logout".  Of all
    the elements below the content, these two are the only ones a user
    could act on (link, button, trigger, or an element given a handler or
    a destination), and the only handler below the content is the
    [onClick] of the button. *)
Theorem menu_has_two_entries (arguments : list JSValue) (s : St) :
  exists tree content link button h,
    UsernameMenu arguments s = (Ok tree, s)
    /\ content_of tree = Some content
    /\ map entry_summary (interactive_entries content)
       = [(Some Link, "User Profile"); (Some Button, "Logout")]
    /\ map (fun item => map entry_summary (interactive_entries item))
         (menu_items content)
       = [[(Some Link, "User Profile")]; [(Some Button, "Logout")]]
    /\ content
       = NElem DropdownMenuContent []
           [ NElem DropdownMenuItem [] [link];
             NElem Separator [] [];
             NElem DropdownMenuItem [] [button] ]
    /\ link
       = NElem Link
           [("to", PString "/user-profile");
            ("className", PString "font-bold hover:text-orange-500")]
           [NText "User Profile"]
    /\ button
       = NElem Button
           [("onClick", PHandler h);
            ("className", PString "flex flex-1 font-bold bg-orange-500")]
           [NText "Logout"]
    /\ filter activatable (descendants content) = [link; button]
    /\ all_handlers content = [(Button, "onClick", h)].
Proof.
  rewrite UsernameMenu_renders.
  do 5 eexists. repeat split; reflexivity.
Qed.

(** C4.  In every render the "User Profile" entry is the one router
    link of the tree, its [to] is "/user-profile", and following it
    records a navigation to exactly that path. *)
Theorem profile_link_target (arguments : list JSValue) (s : St) :
  exists tree content link,
    UsernameMenu arguments s = (Ok tree, s)
    /\ content_of tree = Some content
    /\ find_all Link tree = [link]
    /\ hd_error (interactive_entries content) = Some link
    /\ text_content link = "User Profile"
    /\ string_prop "to" link = Some "/user-profile"
    /\ forall log : NavigationLog,
         follow_link link log = (log ++ ["/user-profile"])%list.
Proof.
  rewrite UsernameMenu_renders.
  email_cases; do 3 eexists; repeat split; reflexivity.
Qed.

(** C9, as the code has it.  In every render, whether or not a user
    is signed in, the "User Profile" entry is the one router link of
    the tree and is rendered with exactly two attributes: it has no
    [href], its route target is given by [to] and is "/user-profile",
    and the element is the same for every state of the provider (it is
    not guarded). *)
Theorem profile_link_has_target_and_no_guard
  (arguments : list JSValue) (s : St) :
  exists tree link,
    UsernameMenu arguments s = (Ok tree, s)
    /\ find_all Link tree = [link]
    /\ text_content link = "User Profile"
    /\ get_prop "href" link = None
    /\ string_prop "to" link = Some "/user-profile"
    /\ link = NElem Link
                [("to", PString "/user-profile");
                 ("className", PString "font-bold hover:text-orange-500")]
                [NText "User Profile"].
Proof.
  rewrite UsernameMenu_renders.
  email_cases; do 2 eexists; repeat split; reflexivity.
Qed.

(** C10.  Whatever the two states of the provider, absent user
    included, the menu content of both renders is the "User Profile"
    link, the separator and the "Logout" button, in that order.  When the
    two contexts offer the same [logout] (the button closes over it) the
    two contents are equal, and the two trees are the menu around the
    same icon and the same content: they differ in the expression child
    of the trigger only. *)
Theorem menu_content_is_fixed (a1 a2 : list JSValue) (s1 s2 : St) :
  (exists t1 t2 c1 c2,
     UsernameMenu a1 s1 = (Ok t1, s1)
     /\ UsernameMenu a2 s2 = (Ok t2, s2)
     /\ content_of t1 = Some c1
     /\ content_of t2 = Some c2
     /\ outline c1 = outline c2
     /\ outline c1
        = OElem DropdownMenuContent
            [ OElem DropdownMenuItem [OElem Link [OText "User Profile"]];
              OElem Separator [];
              OElem DropdownMenuItem [OElem Button [OText "Logout"]] ])
  /\ (logout (auth0_context s1) = logout (auth0_context s2) ->
      exists cls icon content,
        rendered a1 s1
        = Some (NElem DropdownMenu []
                  [ NElem DropdownMenuTrigger cls
                      [ NText " "; icon;
                        expression_child (current_email (auth0_context s1)) ];
                    content ])
        /\ rendered a2 s2
           = Some (NElem DropdownMenu []
                     [ NElem DropdownMenuTrigger cls
                         [ NText " "; icon;
                           expression_child
                             (current_email (auth0_context s2)) ];
                       content ])
        /\ has_type DropdownMenuContent content = true).
Proof.
  split.
  - rewrite !UsernameMenu_renders.
    do 4 eexists. repeat split; reflexivity.
  - intros Hlogout. unfold rendered.
    rewrite !UsernameMenu_renders, Hlogout. cbn [fst].
    do 3 eexists. repeat split; reflexivity.
Qed.

(** ** State of the identity provider *)

(** C6.  A render leaves the provider in the state it found it.  The
    tree holds one handler, the [onClick] of the button, and running it
    is running the provider's [logout] on no arguments, whatever the
    event.  The tree depends on the provider through [user?.email] and
    [logout] only: a state that agrees on these two renders the same
    tree. *)
Theorem identity_state_is_framed (arguments : list JSValue) (s : St) :
  snd (UsernameMenu arguments s) = s
  /\ (exists tree h,
        rendered arguments s = Some tree
        /\ all_handlers tree = [(Button, "onClick", h)]
        /\ forall (event : list JSValue) (s' : St),
             h event s' = logout (auth0_context s) [] s')
  /\ forall (arguments' : list JSValue) (s' : St),
       current_email (auth0_context s') = current_email (auth0_context s) ->
       logout (auth0_context s') = logout (auth0_context s) ->
       rendered arguments' s' = rendered arguments s.
Proof.
  split; [rewrite UsernameMenu_renders; reflexivity|].
  split.
  - unfold rendered. rewrite UsernameMenu_renders. cbn [fst].
    email_cases; do 2 eexists; repeat split; reflexivity.
  - intros arguments' s' Hemail Hlogout.
    now apply rendered_ext.
Qed.

(** C7.  The arguments the component is called with are ignored: two
    renders whose contexts agree on [user] and [logout] yield equal
    trees.  When the provider changes to a state whose address is [e']
    and the mounted component is rendered again, the second tree is the
    one a first render in the new state gives, and the string children
    of its trigger are the blank and [e']. *)
Theorem render_is_function_of_auth_state
  (a1 a2 : list JSValue) (s1 s2 : St) (change : St -> St) (e' : string) :
  (user (auth0_context s1) = user (auth0_context s2) ->
   logout (auth0_context s1) = logout (auth0_context s2) ->
   rendered a1 s1 = rendered a2 s2)
  /\ (current_email (auth0_context (change s1)) = Some e' ->
      exists first second trigger,
        rerender a1 change s1 = (Ok (first, second), change s1)
        /\ rendered a1 s1 = Some first
        /\ rendered a2 (change s1) = Some second
        /\ trigger_of second = Some trigger
        /\ text_children trigger = [" "; e']).
Proof.
  split.
  - intros Huser Hlogout. apply rendered_ext; [|exact Hlogout].
    unfold current_email. rewrite Huser. reflexivity.
  - intros Hemail. unfold rerender, rendered, bind, provider_update, ret.
    rewrite !UsernameMenu_renders. cbn [fst]. rewrite Hemail.
    do 3 eexists. repeat split; reflexivity.
Qed.

(** ** Opening and closing *)

(** C8.  The component arranges the dropdown primitive so that its
    behaviour reaches every part: the menu is the root and is given no
    attribute, the trigger is its first child, the content its second;
    the one link and the one button of the tree each sit inside a menu
    item of the content, and the items are given no attribute.  On that
    tree: with no gesture the menu is closed; a gesture on the trigger or
    on anything inside it opens the menu; a gesture outside closes it; a
    gesture on either item or on anything inside it, the link and the
    button included, is the selection of that item (the first item for
    the link, the second for the button) and leaves the menu closed; a
    gesture on the separator selects nothing.  After any
    history, a closing gesture leaves the menu closed and a trigger
    gesture leaves it open. *)
Theorem dropdown_opens_and_closes (arguments : list JSValue) (s : St) :
  exists tree trigger content link button,
    rendered arguments s = Some tree
    /\ (node_at tree [0] = Some trigger
        /\ trigger_of tree = Some trigger
        /\ node_at tree [1] = Some content
        /\ content_of tree = Some content
        /\ node_at tree [1; 0; 0] = Some link
        /\ find_all Link tree = [link]
        /\ node_at tree [1; 2; 0] = Some button
        /\ find_all Button tree = [button])
    /\ (node_type tree = Some DropdownMenu
        /\ node_props tree = []
        /\ map node_props (menu_items content) = [[]; []])
    /\ (classify tree (Activate [1; 0; 0])
        = Some (Dropdown.ItemSelection 0)
        /\ classify tree (Activate [1; 2; 0])
           = Some (Dropdown.ItemSelection 1)
        /\ classify tree (Activate [1; 1]) = None
        /\ map (find_all Link) (menu_items content) = [[link]; []]
        /\ map (find_all Button) (menu_items content) = [[]; [button]])
    /\ gesture_run tree [] = false
    /\ (forall open rest,
          node_at tree (0 :: rest) <> None ->
          gesture_step tree open (Activate (0 :: rest)) = true)
    /\ (forall open, gesture_step tree open Outside = false)
    /\ (forall open j rest,
          j = 0 \/ j = 2 ->
          node_at tree (1 :: j :: rest) <> None ->
          closing tree (Activate (1 :: j :: rest)) = true
          /\ gesture_step tree open (Activate (1 :: j :: rest)) = false)
    /\ (forall gestures g,
          closing tree g = true ->
          gesture_run tree (gestures ++ [g])%list = false)
    /\ (forall gestures rest,
          node_at tree (0 :: rest) <> None ->
          gesture_run tree (gestures ++ [Activate (0 :: rest)])%list = true).
Proof.
  unfold rendered. rewrite UsernameMenu_renders. cbn [fst].
  email_cases; do 5 eexists.
  all: split; [reflexivity|].
  all: split; [repeat split; reflexivity|].
  all: split; [repeat split; reflexivity|].
  all: split; [repeat split; reflexivity|].
  all: split; [reflexivity|].
  all: settle_gestures.
Qed.

End Claims.

(** ** The properties at concrete sessions *)

Lemma trigger_shows_email_witness :
  exists tree trigger,
    @UsernameMenu Session SessionProvider [] (signed_in "a@b.com" "ann")
    = (Ok tree, signed_in "a@b.com" "ann")
    /\ trigger_of tree = Some trigger
    /\ In (NText "a@b.com") (node_children trigger)
    /\ text_children trigger = [" "; "a@b.com"]
    /\ text_content trigger = " a@b.com".
Proof.
  exact (@trigger_shows_email Session SessionProvider []
           (signed_in "a@b.com" "ann")
           {| sub := Some "auth0|1"; nickname := Some "ann";
              picture := None; email := Some "a@b.com" |}
           "a@b.com" eq_refl eq_refl).
Defined.

Lemma render_without_email_witness :
  (exists tree trigger icon,
     @UsernameMenu Session SessionProvider [] signed_out
     = (Ok tree, signed_out)
     /\ trigger_of tree = Some trigger
     /\ node_children trigger = [NText " "; icon; NUndefined]
     /\ has_type CircleUserRound icon = true
     /\ text_children trigger = [" "]
     /\ text_content trigger = " ")
  /\ (exists tree trigger icon,
        @UsernameMenu Session SessionProvider [VObject []] without_email
        = (Ok tree, without_email)
        /\ trigger_of tree = Some trigger
        /\ node_children trigger = [NText " "; icon; NUndefined]
        /\ has_type CircleUserRound icon = true
        /\ text_children trigger = [" "]
        /\ text_content trigger = " ").
Proof.
  split.
  - apply (@render_without_email Session SessionProvider [] signed_out).
    left. reflexivity.
  - apply (@render_without_email Session SessionProvider [VObject []]
             without_email).
    right. eexists. split; reflexivity.
Defined.

Lemma menu_content_is_fixed_witness :
  exists cls icon content,
    @rendered Session SessionProvider [] signed_out
    = Some (NElem DropdownMenu []
              [ NElem DropdownMenuTrigger cls [ NText " "; icon; NUndefined ];
                content ])
    /\ @rendered Session SessionProvider [] (signed_in "a@b.com" "ann")
       = Some (NElem DropdownMenu []
                 [ NElem DropdownMenuTrigger cls
                     [ NText " "; icon; NText "a@b.com" ];
                   content ])
    /\ has_type DropdownMenuContent content = true.
Proof.
  apply (@menu_content_is_fixed Session SessionProvider [] []
           signed_out (signed_in "a@b.com" "ann")).
  reflexivity.
Defined.

(** Two users with the same address and different names render the same
    tree, whatever the component is called with. *)
Lemma identity_state_is_framed_witness :
  @rendered Session SessionProvider [VObject []] (signed_in "a@b.com" "bob")
  = @rendered Session SessionProvider [] (signed_in "a@b.com" "ann").
Proof.
  apply (@identity_state_is_framed Session SessionProvider []
           (signed_in "a@b.com" "ann")); reflexivity.
Defined.

(** The address arrives while the component is mounted. *)
Lemma render_is_function_of_auth_state_witness :
  @rendered Session SessionProvider [] loading
  = @rendered Session SessionProvider [VObject []] signed_out
  /\ exists first second trigger,
       @rerender Session SessionProvider []
         (fun _ => signed_in "new@b.com" "ann") loading
       = (Ok (first, second), signed_in "new@b.com" "ann")
       /\ rendered [] loading = Some first
       /\ rendered [VObject []] (signed_in "new@b.com" "ann") = Some second
       /\ trigger_of second = Some trigger
       /\ text_children trigger = [" "; "new@b.com"].
Proof.
  pose proof (@render_is_function_of_auth_state Session SessionProvider
                [] [VObject []] loading signed_out
                (fun _ => signed_in "new@b.com" "ann") "new@b.com")
    as [Hsame Hagain].
  split; [apply Hsame; reflexivity|apply Hagain; reflexivity].
Defined.

(** C9, as stated, fails: the link the component renders for a
    signed-out session names its destination. *)
Lemma profile_link_is_not_bare :
  exists tree link,
    @rendered Session SessionProvider [] signed_out = Some tree
    /\ find_all Link tree = [link]
    /\ text_content link = "User Profile"
    /\ get_prop "to" link = Some (PString "/user-profile")
    /\ ~ bare_link link.
Proof.
  do 2 eexists. repeat split.
  intros [_ Hto]. discriminate Hto.
Qed.

(** ** Beyond single interactions *)

(** Clicks on an element whose handler performs [f] and records one call
    on no arguments add up: as many calls as clicks. *)
Lemma click_each_recorded {St : Type} (n : Node (St * CallLog))
  (f : St -> St) :
  (forall event w, click n event w = (f (fst w), (snd w ++ [[]])%list)) ->
  forall events w,
    click_each n events w
    = (Nat.iter (length events) f (fst w),
       (snd w ++ repeat [] (length events))%list).
Proof.
  intros Hclick events.
  induction events as [|event events IH]; intros w.
  - cbn. rewrite app_nil_r. destruct w; reflexivity.
  - unfold click_each in *. cbn [fold_left length repeat].
    rewrite IH, Hclick. cbn [fst snd].
    rewrite <- app_assoc, Nat.iter_succ_r. reflexivity.
Qed.

(** X1.  The Logout button has no guard against repeated use: after any
    sequence of clicks on the rendered button, the provider's [logout] of
    the render has run once per click and the record holds one more empty
    argument list per click, whatever the events were. *)
Theorem repeated_clicks_call_logout_each_time
  {St : Type} (base : Auth0Provider St)
  (arguments : list JSValue) (w : St * CallLog) :
  exists tree button,
    @UsernameMenu _ (Recording base) arguments w = (Ok tree, w)
    /\ find_all Button tree = [button]
    /\ forall (events : list JSValue) (w' : St * CallLog),
         click_each button events w'
         = (Nat.iter (length events)
              (logout (@auth0_context _ base (fst w)) []) (fst w'),
            (snd w' ++ repeat [] (length events))%list).
Proof.
  rewrite UsernameMenu_renders.
  email_cases; do 2 eexists.
  all: split; [reflexivity|].
  all: split; [reflexivity|].
  all: apply click_each_recorded; intros event w0; reflexivity.
Qed.

(** X2.  The tree gives back what it was rendered from: two renders with
    equal trees had the same value of [user?.email] (an empty address and
    a missing one are told apart) and the same action of [logout] on no
    arguments. *)
Theorem rendered_reflects_context
  {St : Type} {provider : Auth0Provider St}
  (a1 a2 : list JSValue) (s1 s2 : St) :
  rendered a1 s1 = rendered a2 s2 ->
  current_email (auth0_context s1) = current_email (auth0_context s2)
  /\ logout (auth0_context s1) [] = logout (auth0_context s2) [].
Proof.
  unfold rendered. rewrite !UsernameMenu_renders. cbn [fst].
  intros Heq. injection Heq as Hchild Hhandler. split.
  - destruct (current_email (auth0_context s1)),
             (current_email (auth0_context s2));
      cbn in Hchild; congruence.
  - exact (f_equal (fun h : Handler St => h []) Hhandler).
Qed.

Lemma rendered_reflects_context_witness :
  current_email (auth0_context (signed_in "a@b.com" "bob"))
  = current_email (auth0_context (signed_in "a@b.com" "ann"))
  /\ logout (auth0_context (signed_in "a@b.com" "bob")) []
     = logout (auth0_context (signed_in "a@b.com" "ann")) [].
Proof.
  apply (@rendered_reflects_context Session SessionProvider
           [VObject []] [] (signed_in "a@b.com" "bob")
           (signed_in "a@b.com" "ann")).
  reflexivity.
Defined.

(** The menu is opened by a gesture on the icon of the trigger and closed
    by one on the label of the Logout button; once open, a gesture on the
    profile link closes it too. *)
Lemma dropdown_opens_and_closes_witness :
  exists tree,
    @rendered Session SessionProvider [] (signed_in "a@b.com" "ann")
    = Some tree
    /\ gesture_run tree [Activate [0; 1]] = true
    /\ gesture_run tree [Activate [0; 1]; Activate [1; 2; 0; 0]] = false
    /\ gesture_step tree true (Activate [1; 0; 0]) = false.
Proof.
  destruct (@dropdown_opens_and_closes Session SessionProvider []
              (signed_in "a@b.com" "ann"))
    as (tree & trigger & content & link & button & Hrendered & _ & _ & _ & _
        & _ & _ & Hitem & Hclosed & Hopened).
  exists tree. split; [exact Hrendered|].
  vm_compute in Hrendered. injection Hrendered as Htree. subst tree.
  assert (Hicon : forall p : option (Node Session),
             p = Some (NElem CircleUserRound
                         [("className", PString "text-orange-500")] []) ->
             p <> None) by (intros p ->; discriminate).
  split.
  - apply (Hopened [] [1]). apply Hicon. reflexivity.
  - split.
    + apply (Hclosed [Activate [0; 1]] (Activate [1; 2; 0; 0])).
      apply (Hitem true 2 [0; 0]); [right; reflexivity|].
      intros Hnone; discriminate Hnone.
    + apply (Hitem true 0 [0]); [left; reflexivity|].
      intros Hnone; discriminate Hnone.
Defined.
